(** * The CSI snapshot webhook controller (pkg/operator/webhookdeployment/webhook.go)

    A shallow embedding of the controller's [sync] function and of the two
    rendering helpers [getDeployment] and [getWebhookConfig], followed by the
    properties of the reconciliation cycle: replica sizing, status
    conditions, template rendering, the quiet exits and the order of the
    calls made to the cluster.

    Go values are embedded as follows.  Strings are [string] (a Go string is
    a sequence of bytes, an [ascii] is one byte).  [int], [int32] and [int64]
    are [Z]; the code only compares and prints them, so no wrap-around is
    involved.  A [*int32] is an [option Z].  A [map[string]string] is a
    [gmap string string] (reading a nil map and an empty map agree in Go).
    Go packages are Rocq modules of the same name. *)

From Stdlib Require Import ZArith String Ascii List DecimalString Lia.
From stdpp Require Import base option list gmap strings.

Local Open Scope string_scope.
Local Open Scope Z_scope.

(** ** The Go standard library, as far as the controller uses it *)

Module strconv.

(** [strconv.Itoa]: signed decimal, no padding. *)
Definition Itoa (i : Z) : string := NilZero.string_of_int (Z.to_int i).

End strconv.

Module fmt.

(** An operand of a formatting call. *)
Inductive arg :=
| Int (i : Z)
| Str (s : string).

(** [fmt.Sprintf] for formats whose only verb is [%d], each fed an
    integer: the forms the controller uses.  A [%d] left without an
    operand prints Go's marker for a missing operand. *)
Fixpoint Sprintf (format : string) (a : list Z) : string :=
  match format with
  | EmptyString => EmptyString
  | String "%" (String "d" rest) =>
      match a with
      | i :: a' => strconv.Itoa i +:+ Sprintf rest a'
      | [] => "%!d(MISSING)" +:+ Sprintf rest []
      end
  | String ch rest => String ch (Sprintf rest a)
  end.

End fmt.

Module strings.

(** [strings.HasPrefix]. *)
Fixpoint HasPrefix (s prefix : string) {struct prefix} : bool :=
  match prefix with
  | EmptyString => true
  | String p prefix' =>
      match s with
      | EmptyString => false
      | String ch s' => if Ascii.eqb ch p then HasPrefix s' prefix' else false
      end
  end.

(** The scan of [strings.Replace] with a non-empty [old] and no limit:
    the leftmost occurrence is replaced, the scan resumes after it.
    [skip] counts the bytes of a matched occurrence still to pass over. *)
Fixpoint replaceFrom (old new : string) (skip : nat) (s : string) : string :=
  match s with
  | EmptyString => EmptyString
  | String ch s' =>
      match skip with
      | S k => replaceFrom old new k s'
      | O =>
          if HasPrefix s old
          then new +:+ replaceFrom old new (Nat.pred (String.length old)) s'
          else String ch (replaceFrom old new O s')
      end
  end.

(** With an empty [old], Go puts [new] before every character and at the
    end; on text that is ASCII only, a character is a byte. *)
Fixpoint interleave (new : string) (s : string) : string :=
  match s with
  | EmptyString => new
  | String ch s' => new +:+ String ch (interleave new s')
  end.

(** [strings.ReplaceAll]. *)
Definition ReplaceAll (s old new : string) : string :=
  match old with
  | EmptyString => interleave new s
  | String _ _ => replaceFrom old new O s
  end.

End strings.

(** ** Errors *)

(** A Go [error] value, as far as the controller tells errors apart: one
    made by [fmt.Errorf] (kept with its format and operands), the API
    machinery's status error with its reason, or any other error. *)
Inductive error :=
| Errorf (format : string) (a : list fmt.arg)
| StatusError (reason : string) (message : string)
| OtherError (message : string).

Module apierrors.

Definition StatusReasonNotFound : string := "NotFound".

(** [apierrors.IsNotFound]. *)
Definition IsNotFound (err : error) : bool :=
  match err with
  | StatusError reason _ => String.eqb reason StatusReasonNotFound
  | _ => false
  end.

End apierrors.

(** What a Go function with an [error] result, or one that may panic,
    ends in. *)
Inductive result (A : Type) :=
| Ok (a : A)
| Err (err : error)
| Die (why : string).
Arguments Ok {A} a.
Arguments Err {A} err.
Arguments Die {A} why.

(** What a call to a collaborator comes back with: a value or an error. *)
Inductive reply (A : Type) :=
| Replied (a : A)
| Failed (err : error).
Arguments Replied {A} a.
Arguments Failed {A} err.

(** ** The API types *)

Module metav1.

Record ObjectMeta := {
  Name : string;
  Namespace : string;
  Generation : Z;
  Annotations : gmap string string;
}.

End metav1.

Module corev1.

Record PodSpec := {
  NodeSelector : gmap string string;
}.

Record PodTemplateSpec := {
  Spec : PodSpec;
}.

Record Node := {
  ObjectMeta : metav1.ObjectMeta;
  Labels : gmap string string;
}.

End corev1.

Module appsv1.

Record DeploymentSpec := {
  Replicas : option Z;
  Template : corev1.PodTemplateSpec;
}.

Record DeploymentStatus := {
  ObservedGeneration : Z;
  UpdatedReplicas : Z;
  AvailableReplicas : Z;
}.

Record Deployment := {
  ObjectMeta : metav1.ObjectMeta;
  Spec : DeploymentSpec;
  Status : DeploymentStatus;
}.

(** [deployment.Generation], a field promoted from the embedded
    [ObjectMeta]. *)
Definition Generation (d : Deployment) : Z := metav1.Generation (ObjectMeta d).

End appsv1.

Module admissionv1.

Record RuleWithOperations := {
  Operations : list string;
  APIGroups : list string;
  APIVersions : list string;
  Resources : list string;
}.

Record ValidatingWebhook := {
  Name : string;
  Rules : list RuleWithOperations;
}.

Record ValidatingWebhookConfiguration := {
  ObjectMeta : metav1.ObjectMeta;
  Webhooks : list ValidatingWebhook;
}.

End admissionv1.

Module operatorapi.

Definition Managed : string := "Managed".
Definition Unmanaged : string := "Unmanaged".
Definition Removed : string := "Removed".

Definition Normal : string := "Normal".
Definition Debug : string := "Debug".
Definition Trace : string := "Trace".
Definition TraceAll : string := "TraceAll".

Definition ConditionTrue : string := "True".
Definition ConditionFalse : string := "False".

Definition OperatorStatusTypeAvailable : string := "Available".
Definition OperatorStatusTypeProgressing : string := "Progressing".

Record OperatorSpec := {
  ManagementState : string;
  LogLevel : string;
}.

(** [Type_] is the Go field [Type]. *)
Record OperatorCondition := {
  Type_ : string;
  Status : string;
  Reason : string;
  Message : string;
}.

Record GenerationStatus := {
  Group : string;
  Resource : string;
  Namespace : string;
  Name : string;
  LastGeneration : Z;
}.

Record OperatorStatus := {
  Conditions : list OperatorCondition;
  Generations : list GenerationStatus;
}.

End operatorapi.

(** What [runtime.Decode] hands back: an object of some kind. *)
Module runtime.

Inductive Object :=
| ValidatingWebhookConfiguration (webhook : admissionv1.ValidatingWebhookConfiguration)
| OtherKind (kind : string).

End runtime.

(** ** The libraries the controller is linked with *)

(** The generated asset package: the manifests compiled into the operator. *)
Class Assets := {
  (** [generated.MustAsset]: the embedded manifest of that name. *)
  MustAsset : string -> string;
}.

(** The functions of library-go and of the API machinery that the
    controller calls and that do not touch the cluster.  The controller is
    verified against any implementation of them. *)
Class Library := {
  (** [loglevel.ValidLogLevel] and [loglevel.LogLevelToVerbosity]. *)
  ValidLogLevel : string -> bool;
  LogLevelToVerbosity : string -> Z;
  (** The decoder behind [resourceread.ReadDeploymentV1OrDie]; [None] when
      the text is not a Deployment. *)
  ReadDeploymentV1 : string -> option appsv1.Deployment;
  (** [runtime.Decode] with the admission/v1 decoder. *)
  Decode : string -> reply runtime.Object;
  (** The hash library-go computes over a value whose change is to be
      detected, here a list of webhooks. *)
  specHash : list admissionv1.ValidatingWebhook -> string;
  (** [resourcemerge]: the generation recorded for an object, and the
      recording of one. *)
  ExpectedDeploymentGeneration :
    appsv1.Deployment -> list operatorapi.GenerationStatus -> Z;
  ExpectedValidatingWebhooksConfiguration :
    string -> list operatorapi.GenerationStatus -> Z;
  SetDeploymentGeneration :
    list operatorapi.GenerationStatus -> appsv1.Deployment ->
    list operatorapi.GenerationStatus;
  SetValidatingWebhooksConfigurationGeneration :
    list operatorapi.GenerationStatus ->
    admissionv1.ValidatingWebhookConfiguration ->
    list operatorapi.GenerationStatus;
  (** [v1helpers.SetOperatorCondition]. *)
  SetOperatorCondition :
    list operatorapi.OperatorCondition -> operatorapi.OperatorCondition ->
    list operatorapi.OperatorCondition;
}.

Module labels.

(** A selector made of a label set selects the objects that carry every
    label of the set. *)
Definition Selector := gmap string string.
Definition SelectorFromSet (ls : gmap string string) : Selector := ls.

End labels.

Module resourceread.

(** [resourceread.ReadDeploymentV1OrDie] panics on text it cannot
    decode. *)
Definition ReadDeploymentV1OrDie `{Library} (objBytes : string)
  : result appsv1.Deployment :=
  match ReadDeploymentV1 objBytes with
  | Some d => Ok d
  | None => Die "ReadDeploymentV1OrDie"
  end.

End resourceread.

Module resourceapply.

Definition specHashAnnotation : string := "operator.openshift.io/spec-hash".

(** Modelled from the spec: library-go's [SetSpecHashAnnotation] is not
    among the sources.  It computes a content hash over the given value
    and stamps it as an annotation on the object. *)
Definition SetSpecHashAnnotation `{Library} (objMeta : metav1.ObjectMeta)
    (spec : list admissionv1.ValidatingWebhook) : metav1.ObjectMeta :=
  {| metav1.Name := metav1.Name objMeta;
     metav1.Namespace := metav1.Namespace objMeta;
     metav1.Generation := metav1.Generation objMeta;
     metav1.Annotations :=
       <[specHashAnnotation := specHash spec]> (metav1.Annotations objMeta) |}.

End resourceapply.

Module workqueue.

(** A named rate-limiting queue; the controller holds one by reference. *)
Record RateLimitingInterface := {
  name : string;
}.

Definition NewNamedRateLimitingQueue (name : string) : RateLimitingInterface :=
  {| name := name |}.

End workqueue.

(** ** The controller *)

(** The struct's [client], [kubeClient], [nodeLister] and [eventRecorder]
    are handles on the collaborators; the calls made through them are the
    constructors of [call] below. *)
Record csiSnapshotWebhookController := {
  queue : workqueue.RateLimitingInterface;
  csiSnapshotWebhookImage : string;
}.

Definition WebhookControllerName : string := "CSISnapshotWebhookController".
Definition webhookVersionName : string := "CSISnapshotWebhookDeployment".
Definition deploymentAsset : string := "webhook_deployment.yaml".
Definition webhookAsset : string := "webhook_config.yaml".

(** An update function handed to [v1helpers.UpdateStatus]: either
    [v1helpers.UpdateConditionFn cond], or the closure [updateGenerationFn]
    of [sync] with the two objects it captures. *)
Inductive UpdateStatusFunc :=
| UpdateConditionFn (cond : operatorapi.OperatorCondition)
| updateGenerationFn (deployment : appsv1.Deployment)
    (webhookConfig : admissionv1.ValidatingWebhookConfiguration).

(** What an update function does to the status it is given. *)
Definition applyUpdateStatusFunc `{Library} (f : UpdateStatusFunc)
    (newStatus : operatorapi.OperatorStatus) : operatorapi.OperatorStatus :=
  match f with
  | UpdateConditionFn cond =>
      {| operatorapi.Conditions :=
           SetOperatorCondition (operatorapi.Conditions newStatus) cond;
         operatorapi.Generations := operatorapi.Generations newStatus |}
  | updateGenerationFn deployment webhookConfig =>
      {| operatorapi.Conditions := operatorapi.Conditions newStatus;
         operatorapi.Generations :=
           SetValidatingWebhooksConfigurationGeneration
             (SetDeploymentGeneration (operatorapi.Generations newStatus) deployment)
             webhookConfig |}
  end.

(** *** Calls to the collaborators *)

(** The calls a method of the controller can make: on the operator client,
    the node lister, the cluster (through library-go's appliers, which also
    take the event recorder) and the controller's own work queue.  The index
    is the type of what comes back. *)
Inductive call : Type -> Type :=
| GetOperatorState :
    call (reply (operatorapi.OperatorSpec * operatorapi.OperatorStatus * string))
| NodeLister_List (selector : labels.Selector) :
    call (reply (list corev1.Node))
| ApplyDeployment (required : appsv1.Deployment) (expectedGeneration : Z) :
    call (reply (appsv1.Deployment * bool))
| ApplyValidatingWebhookConfiguration
    (required : admissionv1.ValidatingWebhookConfiguration)
    (expectedGeneration : Z) :
    call (reply (admissionv1.ValidatingWebhookConfiguration * bool))
| UpdateStatus (updateFuncs : list UpdateStatusFunc) :
    call (reply (operatorapi.OperatorStatus * bool))
| Queue_Add (q : workqueue.RateLimitingInterface) (item : string) : call unit
| Queue_AddRateLimited (q : workqueue.RateLimitingInterface) (item : string) :
    call unit
| Queue_AddAfter (q : workqueue.RateLimitingInterface) (item : string)
    (duration : Z) : call unit.

(** A method body: it returns, or makes a call and goes on with what comes
    back. *)
Inductive prog (A : Type) : Type :=
| Ret (a : A)
| Do {X : Type} (c : call X) (k : X -> prog A).
Arguments Ret {A} a.
Arguments Do {A X} c k.

(** [if err != nil { return err }] after a call. *)
Notation "'call!' x ':=' c 'in' k" :=
  (Do c (fun r => match r with
                  | Replied x => k
                  | Failed err => Ret (Err err)
                  end))
  (at level 10, x name, c at level 100, k at level 200, only parsing).

(** The same after a function of the controller; a panic unwinds. *)
Notation "'try!' x ':=' e 'in' k" :=
  (match e with
   | Ok x => k
   | Err err => Ret (Err err)
   | Die why => Ret (Die why)
   end)
  (at level 10, x name, e at level 100, k at level 200, only parsing).

(** One call as it happened: the request and what came back. *)
Inductive event :=
| GotOperatorState
    (r : reply (operatorapi.OperatorSpec * operatorapi.OperatorStatus * string))
| ListedNodes (selector : labels.Selector) (r : reply (list corev1.Node))
| AppliedDeployment (required : appsv1.Deployment) (expectedGeneration : Z)
    (r : reply (appsv1.Deployment * bool))
| AppliedValidatingWebhookConfiguration
    (required : admissionv1.ValidatingWebhookConfiguration)
    (expectedGeneration : Z)
    (r : reply (admissionv1.ValidatingWebhookConfiguration * bool))
| UpdatedStatus (updateFuncs : list UpdateStatusFunc)
    (r : reply (operatorapi.OperatorStatus * bool))
| Enqueued (q : workqueue.RateLimitingInterface) (item : string).

Definition happened {X : Type} (c : call X) : X -> event :=
  match c in call T return T -> event with
  | GetOperatorState => GotOperatorState
  | NodeLister_List selector => ListedNodes selector
  | ApplyDeployment required g => AppliedDeployment required g
  | ApplyValidatingWebhookConfiguration required g =>
      AppliedValidatingWebhookConfiguration required g
  | UpdateStatus fs => UpdatedStatus fs
  | Queue_Add q item => fun _ => Enqueued q item
  | Queue_AddRateLimited q item => fun _ => Enqueued q item
  | Queue_AddAfter q item _ => fun _ => Enqueued q item
  end.

Definition isApply (e : event) : bool :=
  match e with
  | AppliedDeployment _ _ _ | AppliedValidatingWebhookConfiguration _ _ _ => true
  | _ => false
  end.

Definition isStatusWrite (e : event) : bool :=
  match e with
  | UpdatedStatus _ _ => true
  | _ => false
  end.

Definition isEnqueue (e : event) : bool :=
  match e with
  | Enqueued _ _ => true
  | _ => false
  end.

(** The collaborators: a state of the cluster and of the clients' caches,
    and what each call answers and does in it. *)
Record World := {
  state : Type;
  answer : forall X : Type, call X -> state -> X * state;
}.

(** Running a method body against the collaborators: what it returns, the
    calls made in order, and the state left behind. *)
Fixpoint run {A : Type} (W : World) (p : prog A) (s : state W)
  : A * list event * state W :=
  match p with
  | Ret a => (a, [], s)
  | Do c k =>
      let (x, s1) := answer W _ c s in
      let '(a, log, s2) := run W (k x) s1 in
      (a, happened c x :: log, s2)
  end.

Definition returned {A : Type} (W : World) (p : prog A) (s : state W) : A :=
  fst (fst (run W p s)).

Definition calls {A : Type} (W : World) (p : prog A) (s : state W) : list event :=
  snd (fst (run W p s)).

Definition stateAfter {A : Type} (W : World) (p : prog A) (s : state W) : state W :=
  snd (run W p s).

(** *** The methods *)

Section Controller.

Context `{Assets} `{Library}.

(** Lines 73-80: the struct that [NewCSISnapshotWebhookController] builds. *)
Definition newController (csiSnapshotWebhookImage : string)
  : csiSnapshotWebhookController :=
  {| queue := workqueue.NewNamedRateLimitingQueue "csi-snapshot-controller";
     csiSnapshotWebhookImage := csiSnapshotWebhookImage |}.

Definition getDeployment (c : csiSnapshotWebhookController)
    (opSpec : operatorapi.OperatorSpec) : result appsv1.Deployment :=
  let deploymentString := MustAsset deploymentAsset in
  (* Replace image *)
  let deploymentString :=
    strings.ReplaceAll deploymentString "${WEBHOOK_IMAGE}" (csiSnapshotWebhookImage c) in
  (* Replace log level *)
  if negb (ValidLogLevel (operatorapi.LogLevel opSpec))
  then Err (Errorf "logLevel %q is not a valid log level"
              [fmt.Str (operatorapi.LogLevel opSpec)])
  else
    let logLevel := LogLevelToVerbosity (operatorapi.LogLevel opSpec) in
    let deploymentString :=
      strings.ReplaceAll deploymentString "${LOG_LEVEL}" (strconv.Itoa logLevel) in
    resourceread.ReadDeploymentV1OrDie deploymentString.

Definition getWebhookConfig
  : result admissionv1.ValidatingWebhookConfiguration :=
  let webhookBytes := MustAsset webhookAsset in
  match Decode webhookBytes with
  | Failed err => Err err
  | Replied requiredObj =>
      match requiredObj with
      | runtime.OtherKind _ => Die "interface conversion"
      | runtime.ValidatingWebhookConfiguration webhook =>
          (* Set hash of Webhooks[] to apply new ValidatingWebhookConfiguration
             when the asset changes on the operator update. *)
          Ok {| admissionv1.ObjectMeta :=
                  resourceapply.SetSpecHashAnnotation
                    (admissionv1.ObjectMeta webhook) (admissionv1.Webhooks webhook);
                admissionv1.Webhooks := admissionv1.Webhooks webhook |}
      end
  end.

(** Lines 119-122 of [sync]: the local [replicas]. *)
Definition replicas (nodes : list corev1.Node) : Z :=
  if 1 <? Z.of_nat (length nodes) then 2 else 1.

(** [deployment.Spec.Replicas = &replicas]. *)
Definition withReplicas (deployment : appsv1.Deployment) (replicas : Z)
  : appsv1.Deployment :=
  {| appsv1.ObjectMeta := appsv1.ObjectMeta deployment;
     appsv1.Spec :=
       {| appsv1.Replicas := Some replicas;
          appsv1.Template := appsv1.Template (appsv1.Spec deployment) |};
     appsv1.Status := appsv1.Status deployment |}.

(** Lines 144-153 of [sync]: the local [deploymentAvailable].
    Available: at least one replica is running. *)
Definition deploymentAvailable (deployment : appsv1.Deployment)
  : operatorapi.OperatorCondition :=
  let type := WebhookControllerName +:+ operatorapi.OperatorStatusTypeAvailable in
  if 0 <? appsv1.AvailableReplicas (appsv1.Status deployment)
  then {| operatorapi.Type_ := type;
          operatorapi.Status := operatorapi.ConditionTrue;
          operatorapi.Reason := "";
          operatorapi.Message := "" |}
  else {| operatorapi.Type_ := type;
          operatorapi.Status := operatorapi.ConditionFalse;
          operatorapi.Reason := "Deploying";
          operatorapi.Message :=
            "Waiting for a validating webhook Deployment pod to start" |}.

(** Lines 156-175 of [sync]: the local [deploymentProgressing].
    Not progressing: all replicas are at the latest version and the
    Deployment generation matches. *)
Definition deploymentProgressing (deployment : appsv1.Deployment)
  : operatorapi.OperatorCondition :=
  let type := WebhookControllerName +:+ operatorapi.OperatorStatusTypeProgressing in
  if negb (appsv1.ObservedGeneration (appsv1.Status deployment)
           =? appsv1.Generation deployment)
  then
    let msg :=
      fmt.Sprintf "desired generation %d, current generation %d"
        [appsv1.Generation deployment;
         appsv1.ObservedGeneration (appsv1.Status deployment)] in
    {| operatorapi.Type_ := type;
       operatorapi.Status := operatorapi.ConditionTrue;
       operatorapi.Reason := "Deploying";
       operatorapi.Message := msg |}
  else
    match appsv1.Replicas (appsv1.Spec deployment) with
    | Some specReplicas =>
        if appsv1.UpdatedReplicas (appsv1.Status deployment) =? specReplicas
        then {| operatorapi.Type_ := type;
                operatorapi.Status := operatorapi.ConditionFalse;
                operatorapi.Reason := "";
                operatorapi.Message := "" |}
        else
          let msg :=
            fmt.Sprintf "%d out of %d pods running"
              [appsv1.UpdatedReplicas (appsv1.Status deployment); specReplicas] in
          {| operatorapi.Type_ := type;
             operatorapi.Status := operatorapi.ConditionTrue;
             operatorapi.Reason := "Deploying";
             operatorapi.Message := msg |}
    | None =>
        {| operatorapi.Type_ := type;
           operatorapi.Status := "";
           operatorapi.Reason := "";
           operatorapi.Message := "" |}
    end.

Definition sync (c : csiSnapshotWebhookController) : prog (result unit) :=
  Do GetOperatorState (fun r =>
  match r with
  | Failed err =>
      if apierrors.IsNotFound err then Ret (Ok tt) else Ret (Err err)
  | Replied (opSpec, opStatus, _) =>
  if negb (String.eqb (operatorapi.ManagementState opSpec) operatorapi.Managed)
  then Ret (Ok tt)
  else
  try! deployment := getDeployment c opSpec in
  (* Set the number of replicas according to the number of nodes available *)
  let nodeSelector :=
    corev1.NodeSelector (corev1.Spec (appsv1.Template (appsv1.Spec deployment))) in
  call! nodes := NodeLister_List (labels.SelectorFromSet nodeSelector) in
  let deployment := withReplicas deployment (replicas nodes) in
  let lastGeneration :=
    ExpectedDeploymentGeneration deployment (operatorapi.Generations opStatus) in
  call! applied := ApplyDeployment deployment lastGeneration in
  let deployment := fst applied in
  try! webhookConfig := getWebhookConfig in
  let lastWebhookGeneration :=
    ExpectedValidatingWebhooksConfiguration
      (metav1.Name (admissionv1.ObjectMeta webhookConfig))
      (operatorapi.Generations opStatus) in
  call! appliedWebhook :=
    ApplyValidatingWebhookConfiguration webhookConfig lastWebhookGeneration in
  let webhookConfig := fst appliedWebhook in
  (* Compute status *)
  Do (UpdateStatus
        [UpdateConditionFn (deploymentAvailable deployment);
         UpdateConditionFn (deploymentProgressing deployment);
         updateGenerationFn deployment webhookConfig])
     (fun r =>
        match r with
        | Replied _ => Ret (Ok tt)
        | Failed err => Ret (Err err)
        end)
  end).

End Controller.

Module factory.

(** What [factory.New()...ToController name recorder] is made of, as far as
    the controller decides it: the name and the sync function. *)
Record Controller := {
  Name : string;
  Sync : prog (result unit);
}.

End factory.

(** [NewCSISnapshotWebhookController] returns a controller that creates and
    manages the Deployment with the CSI snapshot webhook. *)
Definition NewCSISnapshotWebhookController `{Assets} `{Library}
    (csiSnapshotWebhookImage : string) : factory.Controller :=
  let c := newController csiSnapshotWebhookImage in
  {| factory.Name := WebhookControllerName;
     factory.Sync := sync c |}.

(** ** Substitution, as the specification words it *)

(** [Substituted old new s s']: [s'] is [s] with [new] put at every
    occurrence of [old], read from the left, and every other byte kept. *)
Inductive Substituted (old new : string) : string -> string -> Prop :=
| Substituted_end : Substituted old new "" ""
| Substituted_here (s s' : string) :
    Substituted old new s s' ->
    Substituted old new (old +:+ s) (new +:+ s')
| Substituted_keep (ch : ascii) (s s' : string) :
    strings.HasPrefix (String ch s) old = false ->
    Substituted old new s s' ->
    Substituted old new (String ch s) (String ch s').

(** The template with the image put at every [${WEBHOOK_IMAGE}] of the
    template and the verbosity at every [${LOG_LEVEL}] of the template, in
    one pass over the template.  [skip] counts the bytes of a placeholder
    still to pass over. *)
Fixpoint fillFrom (image verbosity : string) (skip : nat) (template : string)
  : string :=
  match template with
  | EmptyString => EmptyString
  | String ch rest =>
      match skip with
      | S k => fillFrom image verbosity k rest
      | O =>
          if strings.HasPrefix template "${WEBHOOK_IMAGE}"
          then image +:+ fillFrom image verbosity 15 rest
          else if strings.HasPrefix template "${LOG_LEVEL}"
          then verbosity +:+ fillFrom image verbosity 11 rest
          else String ch (fillFrom image verbosity O rest)
      end
  end.

Definition placeholdersFilled (template image verbosity : string) : string :=
  fillFrom image verbosity O template.

(** The rendering as a reader takes it who fills both placeholders of the
    template in one pass. *)
Definition rendersInOnePass `{Assets} `{Library}
    (c : csiSnapshotWebhookController) (opSpec : operatorapi.OperatorSpec) : Prop :=
  getDeployment c opSpec
  = resourceread.ReadDeploymentV1OrDie
      (placeholdersFilled (MustAsset deploymentAsset) (csiSnapshotWebhookImage c)
         (strconv.Itoa (LogLevelToVerbosity (operatorapi.LogLevel opSpec)))).

(** The operator configuration is absent, or says that the operator does
    not manage the webhook. *)
Definition absentOrUnmanaged
    (r : reply (operatorapi.OperatorSpec * operatorapi.OperatorStatus * string))
  : Prop :=
  match r with
  | Failed err => apierrors.IsNotFound err = true
  | Replied (opSpec, _, _) =>
      operatorapi.ManagementState opSpec <> operatorapi.Managed
  end.

(** ** A library and collaborators to run the controller on *)

(** Log levels as library-go's [loglevel] package has them. *)
Definition knownLogLevels : list string :=
  [operatorapi.Normal; operatorapi.Debug; operatorapi.Trace; operatorapi.TraceAll].

Definition verbosityOf (logLevel : string) : Z :=
  if String.eqb logLevel operatorapi.Normal then 2
  else if String.eqb logLevel operatorapi.Debug then 4
  else if String.eqb logLevel operatorapi.Trace then 6
  else if String.eqb logLevel operatorapi.TraceAll then 8
  else 2.

(** A Deployment with nothing but a name. *)
Definition namedDeployment (name : string) : appsv1.Deployment :=
  {| appsv1.ObjectMeta :=
       {| metav1.Name := name; metav1.Namespace := "openshift-cluster-storage-operator";
          metav1.Generation := 0; metav1.Annotations := ∅ |};
     appsv1.Spec :=
       {| appsv1.Replicas := None;
          appsv1.Template := {| corev1.Spec := {| corev1.NodeSelector := ∅ |} |} |};
     appsv1.Status :=
       {| appsv1.ObservedGeneration := 0; appsv1.UpdatedReplicas := 0;
          appsv1.AvailableReplicas := 0 |} |}.

(** A webhook configuration with one webhook, of the given name. *)
Definition namedWebhookConfig (name : string)
  : admissionv1.ValidatingWebhookConfiguration :=
  {| admissionv1.ObjectMeta :=
       {| metav1.Name := "snapshot.storage.k8s.io"; metav1.Namespace := "";
          metav1.Generation := 0; metav1.Annotations := ∅ |};
     admissionv1.Webhooks :=
       [ {| admissionv1.Name := name; admissionv1.Rules := [] |} ] |}.

(** Stand-ins for the decoders and the hash: a manifest decodes to an
    object named by its text, a list of webhooks hashes to its names. *)
Definition testLibrary : Library :=
  {| ValidLogLevel := fun l => existsb (String.eqb l) knownLogLevels;
     LogLevelToVerbosity := verbosityOf;
     ReadDeploymentV1 := fun text => Some (namedDeployment text);
     Decode := fun text =>
       Replied (runtime.ValidatingWebhookConfiguration (namedWebhookConfig text));
     specHash := fun ws => String.concat "," (map admissionv1.Name ws);
     ExpectedDeploymentGeneration := fun _ _ => -1;
     ExpectedValidatingWebhooksConfiguration := fun _ _ => -1;
     SetDeploymentGeneration := fun gs _ => gs;
     SetValidatingWebhooksConfigurationGeneration := fun gs _ => gs;
     SetOperatorCondition := fun cs cond => (cs ++ [cond])%list |}.

(** Manifests in the shape of the operator's. *)
Definition testAssets (webhookRules : string) : Assets :=
  {| MustAsset := fun name =>
       if String.eqb name deploymentAsset
       then "image: ${WEBHOOK_IMAGE} args: --v=${LOG_LEVEL}"
       else if String.eqb name webhookAsset then webhookRules
       else "" |}.

(** What each collaborator answers in a test. *)
Record Script := {
  operatorState :
    reply (operatorapi.OperatorSpec * operatorapi.OperatorStatus * string);
  nodeList : labels.Selector -> reply (list corev1.Node);
  applyDeployment : appsv1.Deployment -> Z -> reply (appsv1.Deployment * bool);
  applyWebhook :
    admissionv1.ValidatingWebhookConfiguration -> Z ->
    reply (admissionv1.ValidatingWebhookConfiguration * bool);
  updateStatus : list UpdateStatusFunc -> reply (operatorapi.OperatorStatus * bool);
}.

Definition scripted (sc : Script) : World :=
  {| state := unit;
     answer := fun X c _ =>
       (match c in call T return T with
        | GetOperatorState => operatorState sc
        | NodeLister_List selector => nodeList sc selector
        | ApplyDeployment required g => applyDeployment sc required g
        | ApplyValidatingWebhookConfiguration required g => applyWebhook sc required g
        | UpdateStatus fs => updateStatus sc fs
        | Queue_Add _ _ => tt
        | Queue_AddRateLimited _ _ => tt
        | Queue_AddAfter _ _ _ => tt
        end, tt) |}.

Definition managedSpec : operatorapi.OperatorSpec :=
  {| operatorapi.ManagementState := operatorapi.Managed;
     operatorapi.LogLevel := operatorapi.Normal |}.

Definition emptyStatus : operatorapi.OperatorStatus :=
  {| operatorapi.Conditions := []; operatorapi.Generations := [] |}.

Definition node (name : string) : corev1.Node :=
  {| corev1.ObjectMeta :=
       {| metav1.Name := name; metav1.Namespace := ""; metav1.Generation := 0;
          metav1.Annotations := ∅ |};
     corev1.Labels := ∅ |}.

(** The cluster's answer to an apply: the object, now at generation 1 and
    with the given status. *)
Definition live (status : appsv1.DeploymentStatus) (required : appsv1.Deployment)
  : appsv1.Deployment :=
  {| appsv1.ObjectMeta :=
       {| metav1.Name := metav1.Name (appsv1.ObjectMeta required);
          metav1.Namespace := metav1.Namespace (appsv1.ObjectMeta required);
          metav1.Generation := 1;
          metav1.Annotations := metav1.Annotations (appsv1.ObjectMeta required) |};
     appsv1.Spec := appsv1.Spec required;
     appsv1.Status := status |}.

(** A cluster of [nodes] where every call succeeds and the Deployment is
    reported with [status]. *)
Definition healthy (nodes : list corev1.Node) (status : appsv1.DeploymentStatus)
  : Script :=
  {| operatorState := Replied (managedSpec, emptyStatus, "1");
     nodeList := fun _ => Replied nodes;
     applyDeployment := fun required _ => Replied (live status required, true);
     applyWebhook := fun required _ => Replied (required, true);
     updateStatus := fun _ => Replied (emptyStatus, true) |}.

(** The same cluster, refusing the webhook configuration. *)
Definition webhookRefused (nodes : list corev1.Node)
    (status : appsv1.DeploymentStatus) (err : error) : Script :=
  {| operatorState := operatorState (healthy nodes status);
     nodeList := nodeList (healthy nodes status);
     applyDeployment := applyDeployment (healthy nodes status);
     applyWebhook := fun _ _ => Failed err;
     updateStatus := updateStatus (healthy nodes status) |}.

(** A cluster whose operator configuration reads as [r]. *)
Definition withOperatorState
    (r : reply (operatorapi.OperatorSpec * operatorapi.OperatorStatus * string))
  : Script :=
  {| operatorState := r;
     nodeList := nodeList (healthy [] {| appsv1.ObservedGeneration := 0;
                                          appsv1.UpdatedReplicas := 0;
                                          appsv1.AvailableReplicas := 0 |});
     applyDeployment := fun required _ => Replied (required, true);
     applyWebhook := fun required _ => Replied (required, true);
     updateStatus := fun _ => Replied (emptyStatus, true) |}.

Definition unmanagedSpec : operatorapi.OperatorSpec :=
  {| operatorapi.ManagementState := operatorapi.Unmanaged;
     operatorapi.LogLevel := operatorapi.Normal |}.

Definition twoNodes : list corev1.Node := [node "worker-0"; node "worker-1"].

Definition rolledOut : appsv1.DeploymentStatus :=
  {| appsv1.ObservedGeneration := 1; appsv1.UpdatedReplicas := 2;
     appsv1.AvailableReplicas := 2 |}.

(** One of two replicas updated, and that one available. *)
Definition rollingOut : appsv1.DeploymentStatus :=
  {| appsv1.ObservedGeneration := 1; appsv1.UpdatedReplicas := 1;
     appsv1.AvailableReplicas := 1 |}.

Definition testController : csiSnapshotWebhookController :=
  newController "quay.io/webhook:v1".

(** What [testController] renders at log level Normal, sized for two
    replicas. *)
Definition renderedForTwo : appsv1.Deployment :=
  withReplicas (namedDeployment "image: quay.io/webhook:v1 args: --v=2") 2.

(** ** Reading a log and a manifest *)

(** The place of a call in a cycle. *)
Definition stage (e : event) : nat :=
  match e with
  | GotOperatorState _ => 0
  | ListedNodes _ _ => 1
  | AppliedDeployment _ _ _ => 2
  | AppliedValidatingWebhookConfiguration _ _ _ => 3
  | UpdatedStatus _ _ => 4
  | Enqueued _ _ => 5
  end.

(** The error a call came back with, if it did. *)
Definition failure (e : event) : option error :=
  match e with
  | GotOperatorState (Failed err) => Some err
  | ListedNodes _ (Failed err) => Some err
  | AppliedDeployment _ _ (Failed err) => Some err
  | AppliedValidatingWebhookConfiguration _ _ (Failed err) => Some err
  | UpdatedStatus _ (Failed err) => Some err
  | _ => None
  end.

(** Lines 192-201 of [getDeployment]: the local [deploymentString] as it is
    handed to the decoder, for a log level that is valid. *)
Definition deploymentString `{Assets} `{Library}
    (c : csiSnapshotWebhookController) (opSpec : operatorapi.OperatorSpec) : string :=
  strings.ReplaceAll
    (strings.ReplaceAll (MustAsset deploymentAsset) "${WEBHOOK_IMAGE}"
       (csiSnapshotWebhookImage c))
    "${LOG_LEVEL}"
    (strconv.Itoa (LogLevelToVerbosity (operatorapi.LogLevel opSpec))).

(** [occurs sub s]: the text [sub] is found somewhere in [s]. *)
Fixpoint occurs (sub s : string) : bool :=
  match s with
  | EmptyString => strings.HasPrefix s sub
  | String _ s' => strings.HasPrefix s sub || occurs sub s'
  end.

(** [hasByte ch s]: the byte [ch] is found in [s]. *)
Fixpoint hasByte (ch : ascii) (s : string) : bool :=
  match s with
  | EmptyString => false
  | String ch' s' => Ascii.eqb ch ch' || hasByte ch s'
  end.

(** [apart s t]: no byte of [s] is found in [t]. *)
Fixpoint apart (s t : string) : bool :=
  match s with
  | EmptyString => true
  | String ch s' => negb (hasByte ch t) && apart s' t
  end.

(** A manifest cut at its placeholders. *)
Inductive piece :=
| Text (s : string)
| ImagePlaceholder
| LevelPlaceholder.

(** The manifest that the pieces make, and the manifest with the
    placeholders filled. *)
Fixpoint manifest (ps : list piece) : string :=
  match ps with
  | [] => ""
  | Text s :: ps' => s +:+ manifest ps'
  | ImagePlaceholder :: ps' => "${WEBHOOK_IMAGE}" +:+ manifest ps'
  | LevelPlaceholder :: ps' => "${LOG_LEVEL}" +:+ manifest ps'
  end.

Fixpoint filled (image verbosity : string) (ps : list piece) : string :=
  match ps with
  | [] => ""
  | Text s :: ps' => s +:+ filled image verbosity ps'
  | ImagePlaceholder :: ps' => image +:+ filled image verbosity ps'
  | LevelPlaceholder :: ps' => verbosity +:+ filled image verbosity ps'
  end.

(** The text between the placeholders holds no dollar sign. *)
Definition plainText (ps : list piece) : bool :=
  forallb (fun p => match p with
                    | Text s => negb (hasByte "$" s)
                    | _ => true
                    end) ps.

(** The operator's Deployment manifest in the test assets, in pieces. *)
Definition testManifest : list piece :=
  [Text "image: "; ImagePlaceholder; Text " args: --v="; LevelPlaceholder].

(** A cluster that refuses to list nodes. *)
Definition nodesUnlisted (err : error) : Script :=
  {| operatorState := operatorState (healthy [] rolledOut);
     nodeList := fun _ => Failed err;
     applyDeployment := applyDeployment (healthy [] rolledOut);
     applyWebhook := applyWebhook (healthy [] rolledOut);
     updateStatus := updateStatus (healthy [] rolledOut) |}.


Definition verboseSpec : operatorapi.OperatorSpec :=
  {| operatorapi.ManagementState := operatorapi.Managed;
     operatorapi.LogLevel := "Verbose" |}.

(** ** Proof automation *)

(** Case analysis on what the collaborators answer, one call at a time. *)
Ltac sync_step :=
  match goal with
  | |- context [let (_, _) := ?p in _] => is_var p; destruct p
  | |- context [match ?x with Replied _ => _ | Failed _ => _ end] =>
      is_var x; destruct x
  | |- context [answer ?W ?X ?c ?s] =>
      let r := fresh "r" in
      let s' := fresh "s" in
      destruct (answer W X c s) as [r s'] eqn:?
  | |- context [match getDeployment ?c ?o with _ => _ end] =>
      destruct (getDeployment c o) eqn:?
  | |- context [match getWebhookConfig with _ => _ end] =>
      destruct getWebhookConfig eqn:?
  | |- context [if ?b then _ else _] => destruct b eqn:?
  end;
  cbn [run happened fst snd].

Ltac sync_cases :=
  unfold calls, returned, stateAfter, sync; cbn [run happened fst snd];
  repeat sync_step.

(** Membership in a log that is known call by call. *)
Ltac pick_event :=
  repeat match goal with
  | H : In _ (_ :: _) |- _ => destruct H as [H|H]
  | H : In _ [] |- _ => destruct H
  | H : @eq event _ _ |- _ => first [discriminate H | injection H as ?; subst]
  | H : @eq (reply _) _ _ |- _ => first [discriminate H | injection H as ?; subst]
  | H : (_, _) = (_, _) |- _ => injection H as ?; subst
  end.

(** The position of an event in a computed log. *)
Tactic Notation "nth_event" integer(n) :=
  vm_compute; do n right; left; reflexivity.

(** The log ends with the event, after four others at most. *)
Ltac ends_with :=
  solve [ exists []; reflexivity
        | eexists [_]; reflexivity
        | eexists [_; _]; reflexivity
        | eexists [_; _; _]; reflexivity
        | eexists [_; _; _; _]; reflexivity ].

(** * Properties *)

(** ** [strings.ReplaceAll] *)

Lemma HasPrefix_app (old s : string) : strings.HasPrefix (old +:+ s) old = true.
Proof.
  induction old as [|p old' IH]; simpl; [reflexivity|].
  now rewrite Ascii.eqb_refl.
Qed.

Lemma HasPrefix_split (old s : string) :
  strings.HasPrefix s old = true -> exists rest, s = old +:+ rest.
Proof.
  revert s. induction old as [|p old' IH]; intros s Hs; simpl in *.
  - now exists s.
  - destruct s as [|ch s']; [discriminate|].
    destruct (Ascii.eqb ch p) eqn:E; [|discriminate].
    apply Ascii.eqb_eq in E. subst ch.
    destruct (IH _ Hs) as [rest ->]. now exists rest.
Qed.

Lemma replaceFrom_skip (old new p s : string) :
  strings.replaceFrom old new (String.length p) (p +:+ s)
  = strings.replaceFrom old new O s.
Proof.
  induction p as [|ch p' IH]; simpl.
  - destruct s; reflexivity.
  - exact IH.
Qed.

Lemma replaceFrom_here (old new s : string) :
  old <> "" ->
  strings.replaceFrom old new O (old +:+ s)
  = new +:+ strings.replaceFrom old new O s.
Proof.
  intros Hold. pose proof (HasPrefix_app old s) as Hp.
  destruct old as [|p old'] eqn:E; [congruence|].
  change (String p old' +:+ s) with (String p (old' +:+ s)) in *.
  cbn [strings.replaceFrom]. rewrite Hp. cbn [String.length Nat.pred].
  now rewrite replaceFrom_skip.
Qed.

Lemma replaceFrom_keep (old new : string) (ch : ascii) (s : string) :
  strings.HasPrefix (String ch s) old = false ->
  strings.replaceFrom old new O (String ch s)
  = String ch (strings.replaceFrom old new O s).
Proof.
  intros Hp. cbn [strings.replaceFrom]. now rewrite Hp.
Qed.

Lemma length_append (a b : string) :
  String.length (a +:+ b) = (String.length a + String.length b)%nat.
Proof. induction a as [|ch a IH]; simpl; [reflexivity|]. now rewrite IH. Qed.

(** The scan computes the substitution. *)
Lemma replaceFrom_Substituted (old new s : string) :
  old <> "" -> Substituted old new s (strings.replaceFrom old new O s).
Proof.
  intros Hold.
  remember (String.length s) as n eqn:Hn.
  revert s Hn. induction n as [n IH] using lt_wf_ind. intros s Hn.
  destruct s as [|ch s'].
  - constructor.
  - destruct (strings.HasPrefix (String ch s') old) eqn:Hp.
    + destruct (HasPrefix_split _ _ Hp) as [rest Hrest].
      rewrite Hrest, replaceFrom_here by assumption.
      constructor. apply (IH (String.length rest)); [|reflexivity].
      subst n. rewrite Hrest, length_append.
      destruct old; [congruence|]. simpl. lia.
    + rewrite replaceFrom_keep by assumption.
      constructor; [assumption|].
      apply (IH (String.length s')); [|reflexivity]. subst n. simpl. lia.
Qed.


Lemma ReplaceAll_Substituted (s old new : string) :
  old <> "" -> Substituted old new s (strings.ReplaceAll s old new).
Proof.
  intros Hold. unfold strings.ReplaceAll.
  destruct old eqn:E; [congruence|]. now apply replaceFrom_Substituted.
Qed.

Lemma append_empty_r (s : string) : s +:+ "" = s.
Proof.
  induction s as [|ch s IH]; [reflexivity|].
  change (String ch (s +:+ "") = String ch s). now rewrite IH.
Qed.

(** ** Rendering the Deployment *)

Example getDeployment_normal :
  @getDeployment (testAssets "") testLibrary (newController "quay.io/webhook:v1")
    managedSpec
  = Ok (namedDeployment "image: quay.io/webhook:v1 args: --v=2").
Proof. vm_compute. reflexivity. Qed.

Example getDeployment_in_one_pass :
  @rendersInOnePass (testAssets "") testLibrary (newController "quay.io/webhook:v1")
    managedSpec.
Proof. unfold rendersInOnePass. vm_compute. reflexivity. Qed.

Example getDeployment_unknown_level :
  @getDeployment (testAssets "") testLibrary (newController "quay.io/webhook:v1")
    {| operatorapi.ManagementState := operatorapi.Managed;
       operatorapi.LogLevel := "Verbose" |}
  = Err (Errorf "logLevel %q is not a valid log level" [fmt.Str "Verbose"]).
Proof. vm_compute. reflexivity. Qed.



(** ** The status conditions *)

(** C3: the Available condition is True exactly when the Deployment has
    more than zero available replicas, whatever the number of replicas
    asked for; otherwise, and so with zero available replicas, it is False
    with reason [Deploying] and a message. *)
Theorem deploymentAvailable_threshold (deployment : appsv1.Deployment) :
  (operatorapi.Status (deploymentAvailable deployment) = operatorapi.ConditionTrue
   <-> 0 < appsv1.AvailableReplicas (appsv1.Status deployment)) /\
  (appsv1.AvailableReplicas (appsv1.Status deployment) <= 0 ->
   operatorapi.Status (deploymentAvailable deployment) = operatorapi.ConditionFalse /\
   operatorapi.Reason (deploymentAvailable deployment) = "Deploying" /\
   operatorapi.Message (deploymentAvailable deployment)
   = "Waiting for a validating webhook Deployment pod to start") /\
  (appsv1.AvailableReplicas (appsv1.Status deployment) = 1 ->
   forall desired : Z,
     operatorapi.Status (deploymentAvailable (withReplicas deployment desired))
     = operatorapi.ConditionTrue).
Proof.
  unfold deploymentAvailable, withReplicas. simpl.
  destruct (0 <? appsv1.AvailableReplicas (appsv1.Status deployment)) eqn:Hcmp; simpl.
  - apply Z.ltb_lt in Hcmp. repeat split; try lia; auto.
  - apply Z.ltb_ge in Hcmp. repeat split; try lia; try discriminate; auto.
Qed.

(** C2: when the observed generation differs from the generation, the
    Progressing condition is True and its message gives both generations.
    When they agree and the Deployment asks for [desired] replicas, the
    condition is False if the updated replicas are as many, and otherwise
    True with a message that gives the updated and the desired count. *)
Theorem deploymentProgressing_tiers (deployment : appsv1.Deployment) :
  (appsv1.ObservedGeneration (appsv1.Status deployment)
   <> appsv1.Generation deployment ->
   operatorapi.Status (deploymentProgressing deployment) = operatorapi.ConditionTrue /\
   operatorapi.Message (deploymentProgressing deployment)
   = "desired generation " +:+ strconv.Itoa (appsv1.Generation deployment)
     +:+ ", current generation "
     +:+ strconv.Itoa (appsv1.ObservedGeneration (appsv1.Status deployment))) /\
  (appsv1.ObservedGeneration (appsv1.Status deployment)
   = appsv1.Generation deployment ->
   forall desired : Z,
     appsv1.Replicas (appsv1.Spec deployment) = Some desired ->
     (appsv1.UpdatedReplicas (appsv1.Status deployment) = desired ->
      operatorapi.Status (deploymentProgressing deployment)
      = operatorapi.ConditionFalse) /\
     (appsv1.UpdatedReplicas (appsv1.Status deployment) <> desired ->
      operatorapi.Status (deploymentProgressing deployment)
      = operatorapi.ConditionTrue /\
      operatorapi.Message (deploymentProgressing deployment)
      = strconv.Itoa (appsv1.UpdatedReplicas (appsv1.Status deployment))
        +:+ " out of " +:+ strconv.Itoa desired +:+ " pods running")).
Proof.
  unfold deploymentProgressing.
  destruct (appsv1.ObservedGeneration (appsv1.Status deployment)
            =? appsv1.Generation deployment) eqn:Hgen; simpl.
  - apply Z.eqb_eq in Hgen. split; [intros Hne; contradiction|].
    intros _ desired ->.
    destruct (appsv1.UpdatedReplicas (appsv1.Status deployment) =? desired)
      eqn:Hupd; simpl.
    + apply Z.eqb_eq in Hupd. split; [reflexivity|]. intros Hne. contradiction.
    + apply Z.eqb_neq in Hupd. split; [intros Heq; contradiction|].
      intros _. split; [reflexivity|]. reflexivity.
  - apply Z.eqb_neq in Hgen. split; [|intros Heq; contradiction].
    intros _. split; [reflexivity|].
    now rewrite append_empty_r.
Qed.

Example progressing_one_out_of_two :
  operatorapi.Message (deploymentProgressing (live rollingOut renderedForTwo))
  = "1 out of 2 pods running".
Proof. vm_compute. reflexivity. Qed.

Example progressing_generation_skew :
  operatorapi.Message
    (deploymentProgressing
       (live {| appsv1.ObservedGeneration := 0; appsv1.UpdatedReplicas := 2;
                appsv1.AvailableReplicas := 2 |} renderedForTwo))
  = "desired generation 1, current generation 0".
Proof. vm_compute. reflexivity. Qed.

(** C9: when the observed generation is the generation and the Deployment
    names no replica count, the Progressing condition carries its type and
    nothing else: no status, no reason, no message. *)
Theorem deploymentProgressing_without_replicas (deployment : appsv1.Deployment) :
  appsv1.ObservedGeneration (appsv1.Status deployment)
  = appsv1.Generation deployment ->
  appsv1.Replicas (appsv1.Spec deployment) = None ->
  deploymentProgressing deployment
  = {| operatorapi.Type_ := "CSISnapshotWebhookControllerProgressing";
       operatorapi.Status := "";
       operatorapi.Reason := "";
       operatorapi.Message := "" |} /\
  operatorapi.Status (deploymentProgressing deployment) <> operatorapi.ConditionTrue /\
  operatorapi.Status (deploymentProgressing deployment) <> operatorapi.ConditionFalse.
Proof.
  intros Hgen Hnil. unfold deploymentProgressing.
  rewrite Hgen, Z.eqb_refl, Hnil. simpl.
  split; [reflexivity|]. split; discriminate.
Qed.

Lemma deploymentAvailable_type (deployment : appsv1.Deployment) :
  operatorapi.Type_ (deploymentAvailable deployment)
  = "CSISnapshotWebhookControllerAvailable".
Proof.
  unfold deploymentAvailable.
  destruct (0 <? appsv1.AvailableReplicas (appsv1.Status deployment)); reflexivity.
Qed.

Lemma deploymentProgressing_type (deployment : appsv1.Deployment) :
  operatorapi.Type_ (deploymentProgressing deployment)
  = "CSISnapshotWebhookControllerProgressing".
Proof.
  unfold deploymentProgressing.
  destruct (negb _); [reflexivity|].
  destruct (appsv1.Replicas _); [|reflexivity].
  destruct (_ =? _); reflexivity.
Qed.

(** ** Rendering the webhook configuration *)



(** ** The reconciliation cycle *)

Lemma replicas_policy (nodes : list corev1.Node) :
  ((length nodes <= 1)%nat /\ replicas nodes = 1) \/
  ((2 <= length nodes)%nat /\ replicas nodes = 2).
Proof.
  unfold replicas. destruct (1 <? Z.of_nat (length nodes)) eqn:Hcmp.
  - apply Z.ltb_lt in Hcmp. right. split; [lia|reflexivity].
  - apply Z.ltb_ge in Hcmp. left. split; [lia|reflexivity].
Qed.

Section Cycle.

Context `{Assets} `{Library}.
Variable W : World.

(** The status write of a cycle: the cycle's last call, right after the two
    applies, both answered with a live object, and made of the two
    conditions of the live Deployment and of the closure that records the
    generations of the two live objects. *)
Lemma sync_status_write (c : csiSnapshotWebhookController) (s : state W)
    (fs : list UpdateStatusFunc) (r : reply (operatorapi.OperatorStatus * bool)) :
  In (UpdatedStatus fs r) (calls W (sync c) s) ->
  exists pre required g deployment changed hook hg webhookConfig hchanged,
    calls W (sync c) s
    = (pre ++ [AppliedDeployment required g (Replied (deployment, changed));
               AppliedValidatingWebhookConfiguration hook hg
                 (Replied (webhookConfig, hchanged));
               UpdatedStatus fs r])%list /\
    Forall (fun e => isStatusWrite e = false) pre /\
    fs = [UpdateConditionFn (deploymentAvailable deployment);
          UpdateConditionFn (deploymentProgressing deployment);
          updateGenerationFn deployment webhookConfig].
Proof.
  sync_cases; intros Hin; pick_event.
  all: match goal with
       | |- context [AppliedDeployment _ _ (Replied ?p)] => destruct p
       end.
  all: match goal with
       | |- context [AppliedValidatingWebhookConfiguration _ _ (Replied ?p)] =>
           destruct p
       end.
  all: eexists [_; _]; do 8 eexists.
  all: split; [reflexivity|]; split; [|reflexivity].
  all: repeat constructor.
Qed.

(** C1: for the node list that the node lister returns for the node
    selector of the rendered Deployment, the cycle goes on to apply that
    Deployment, and no other, asking for one replica when the list holds no
    node or one node, and for two replicas when it holds two nodes or
    more. *)
Theorem sync_replica_count (c : csiSnapshotWebhookController) (s : state W)
    (selector : labels.Selector) (nodes : list corev1.Node) :
  In (ListedNodes selector (Replied nodes)) (calls W (sync c) s) ->
  exists required g r,
    In (AppliedDeployment required g r) (calls W (sync c) s) /\
    (forall required' g' r',
       In (AppliedDeployment required' g' r') (calls W (sync c) s) ->
       required' = required) /\
    selector
    = labels.SelectorFromSet
        (corev1.NodeSelector
           (corev1.Spec (appsv1.Template (appsv1.Spec required)))) /\
    (((length nodes <= 1)%nat /\ appsv1.Replicas (appsv1.Spec required) = Some 1) \/
     ((2 <= length nodes)%nat /\ appsv1.Replicas (appsv1.Spec required) = Some 2)).
Proof.
  sync_cases; intros Hin; pick_event.
  all: do 3 eexists; split; [simpl; eauto|].
  all: split; [intros ? ? ? Hother; pick_event; reflexivity|].
  all: split; [reflexivity|].
  all: cbn [withReplicas appsv1.Spec appsv1.Replicas].
  all: match goal with
       | |- context [replicas ?l] =>
           destruct (replicas_policy l) as [[Hn ->]|[Hn ->]]; auto
       end.
Qed.

(** C5: when the operator configuration is not found, or is found with a
    management state other than Managed, the cycle makes no call after
    reading it: no apply, no status write, and the state of the
    collaborators is the one the read left. It returns no error. *)
Theorem sync_quiet_exit (c : csiSnapshotWebhookController) (s : state W) :
  absentOrUnmanaged (fst (answer W _ GetOperatorState s)) ->
  calls W (sync c) s = [GotOperatorState (fst (answer W _ GetOperatorState s))] /\
  Forall (fun e => isApply e = false /\ isStatusWrite e = false)
    (calls W (sync c) s) /\
  stateAfter W (sync c) s = snd (answer W _ GetOperatorState s) /\
  returned W (sync c) s = Ok tt.
Proof.
  sync_cases; unfold absentOrUnmanaged; intros Hquiet.
  all: try (repeat split; repeat constructor; fail).
  all: try congruence.
  all: exfalso; apply Hquiet.
  all: match goal with
       | E : negb (String.eqb ?a ?b) = false |- _ =>
           apply negb_false_iff, String.eqb_eq in E; exact E
       end.
Qed.

(** C6: when the apply of the Deployment succeeds and the apply of the
    webhook configuration fails, the cycle writes no status and returns the
    error of the failed apply. A status write, if the cycle makes one, is
    its last call and the only one; it comes right after two successful
    applies, and the generations it records are those of the two objects
    these applies returned. *)
Theorem sync_status_all_or_nothing (c : csiSnapshotWebhookController)
    (s : state W) :
  (forall required g applied hook hg err,
     In (AppliedDeployment required g (Replied applied)) (calls W (sync c) s) ->
     In (AppliedValidatingWebhookConfiguration hook hg (Failed err))
        (calls W (sync c) s) ->
     Forall (fun e => isStatusWrite e = false) (calls W (sync c) s) /\
     returned W (sync c) s = Err err) /\
  (forall fs r,
     In (UpdatedStatus fs r) (calls W (sync c) s) ->
     exists pre required g deployment changed hook hg webhookConfig hchanged,
       calls W (sync c) s
       = (pre ++ [AppliedDeployment required g (Replied (deployment, changed));
                  AppliedValidatingWebhookConfiguration hook hg
                    (Replied (webhookConfig, hchanged));
                  UpdatedStatus fs r])%list /\
       Forall (fun e => isStatusWrite e = false) pre /\
       (forall d w, In (updateGenerationFn d w) fs ->
                    d = deployment /\ w = webhookConfig)).
Proof.
  split.
  - sync_cases; intros ? ? ? ? ? ? Hd Hw; pick_event.
    all: split; [repeat constructor|reflexivity].
  - intros fs r Hin.
    destruct (sync_status_write c s fs r Hin)
      as (pre & required & g & deployment & changed & hook & hg
          & webhookConfig & hchanged & Hlog & Hpre & Hfs).
    exists pre, required, g, deployment, changed, hook, hg, webhookConfig, hchanged.
    split; [exact Hlog|]. split; [exact Hpre|].
    intros d w Hgen. subst fs.
    destruct Hgen as [Hgen|[Hgen|[Hgen|[]]]]; try discriminate Hgen.
    injection Hgen as -> ->. split; reflexivity.
Qed.

(** C8: a cycle enqueues nothing, whatever the collaborators answer, and it
    runs the same whatever queue the controller holds. The constructor is
    where the queue is made. *)
Theorem sync_leaves_queue_alone (c : csiSnapshotWebhookController) (s : state W) :
  Forall (fun e => isEnqueue e = false) (calls W (sync c) s) /\
  (forall q : workqueue.RateLimitingInterface,
     sync {| queue := q; csiSnapshotWebhookImage := csiSnapshotWebhookImage c |}
     = sync c) /\
  (forall image : string,
     queue (newController image)
     = workqueue.NewNamedRateLimitingQueue "csi-snapshot-controller").
Proof.
  split; [|split].
  - sync_cases; repeat constructor.
  - intros q. destruct c. reflexivity.
  - reflexivity.
Qed.

(** C10: the two conditions of a status write are typed with the
    controller's name put before Available and before Progressing, and are
    the only conditions of the write. *)
Theorem sync_condition_types (c : csiSnapshotWebhookController) (s : state W)
    (fs : list UpdateStatusFunc) (r : reply (operatorapi.OperatorStatus * bool)) :
  In (UpdatedStatus fs r) (calls W (sync c) s) ->
  exists available progressing deployment webhookConfig,
    fs = [UpdateConditionFn available; UpdateConditionFn progressing;
          updateGenerationFn deployment webhookConfig] /\
    operatorapi.Type_ available
    = WebhookControllerName +:+ operatorapi.OperatorStatusTypeAvailable /\
    operatorapi.Type_ progressing
    = WebhookControllerName +:+ operatorapi.OperatorStatusTypeProgressing /\
    operatorapi.Type_ available = "CSISnapshotWebhookControllerAvailable" /\
    operatorapi.Type_ progressing = "CSISnapshotWebhookControllerProgressing" /\
    operatorapi.Type_ available <> operatorapi.OperatorStatusTypeAvailable /\
    operatorapi.Type_ progressing <> operatorapi.OperatorStatusTypeProgressing.
Proof.
  intros Hin.
  destruct (sync_status_write c s fs r Hin)
    as (pre & required & g & deployment & changed & hook & hg
        & webhookConfig & hchanged & _ & _ & Hfs).
  exists (deploymentAvailable deployment), (deploymentProgressing deployment),
    deployment, webhookConfig.
  rewrite deploymentAvailable_type, deploymentProgressing_type.
  split; [exact Hfs|]. repeat split; discriminate.
Qed.

End Cycle.

(** ** The properties at work on a test cluster *)


Lemma deploymentAvailable_one_of_two :
  operatorapi.Status (deploymentAvailable (live rollingOut renderedForTwo))
  = operatorapi.ConditionTrue.
Proof.
  apply (proj1 (deploymentAvailable_threshold (live rollingOut renderedForTwo))).
  simpl. lia.
Defined.

Lemma deploymentProgressing_one_of_two :
  operatorapi.Status (deploymentProgressing (live rollingOut renderedForTwo))
  = operatorapi.ConditionTrue /\
  operatorapi.Message (deploymentProgressing (live rollingOut renderedForTwo))
  = "1 out of 2 pods running".
Proof.
  destruct (deploymentProgressing_tiers (live rollingOut renderedForTwo))
    as [_ Hsame].
  destruct (Hsame eq_refl 2 eq_refl) as [_ Hbehind].
  destruct Hbehind as [Hstatus Hmessage]; [simpl; lia|].
  split; [exact Hstatus|]. rewrite Hmessage. vm_compute. reflexivity.
Defined.

Lemma deploymentProgressing_unsized :
  deploymentProgressing (namedDeployment "webhook")
  = {| operatorapi.Type_ := "CSISnapshotWebhookControllerProgressing";
       operatorapi.Status := "";
       operatorapi.Reason := "";
       operatorapi.Message := "" |}.
Proof.
  exact (proj1 (deploymentProgressing_without_replicas (namedDeployment "webhook")
                  eq_refl eq_refl)).
Defined.

Lemma sync_replica_count_two_nodes :
  exists required g r,
    In (AppliedDeployment required g r)
       (calls (scripted (healthy twoNodes rolledOut))
          (@sync (testAssets "") testLibrary testController) tt) /\
    appsv1.Replicas (appsv1.Spec required) = Some 2.
Proof.
  destruct (@sync_replica_count (testAssets "") testLibrary
              (scripted (healthy twoNodes rolledOut)) testController tt
              ∅ twoNodes)
    as (required & g & r & Happlied & _ & _ & Hsized).
  - nth_event 1.
  - exists required, g, r. split; [exact Happlied|].
    destruct Hsized as [[Hfew _]|[_ Htwo]]; [|exact Htwo].
    simpl in Hfew. lia.
Defined.

Lemma sync_quiet_exit_unmanaged_or_absent :
  (calls (scripted (withOperatorState (Replied (unmanagedSpec, emptyStatus, "1"))))
     (@sync (testAssets "") testLibrary testController) tt
   = [GotOperatorState (Replied (unmanagedSpec, emptyStatus, "1"))] /\
   returned (scripted (withOperatorState (Replied (unmanagedSpec, emptyStatus, "1"))))
     (@sync (testAssets "") testLibrary testController) tt
   = Ok tt) /\
  (calls (scripted (withOperatorState (Failed (StatusError "NotFound" "cluster"))))
     (@sync (testAssets "") testLibrary testController) tt
   = [GotOperatorState (Failed (StatusError "NotFound" "cluster"))] /\
   returned (scripted (withOperatorState (Failed (StatusError "NotFound" "cluster"))))
     (@sync (testAssets "") testLibrary testController) tt
   = Ok tt).
Proof.
  split.
  - destruct (@sync_quiet_exit (testAssets "") testLibrary
                (scripted (withOperatorState
                             (Replied (unmanagedSpec, emptyStatus, "1"))))
                testController tt)
      as (Hcalls & _ & _ & Hreturned).
    + simpl. discriminate.
    + split; [exact Hcalls|exact Hreturned].
  - destruct (@sync_quiet_exit (testAssets "") testLibrary
                (scripted (withOperatorState
                             (Failed (StatusError "NotFound" "cluster"))))
                testController tt)
      as (Hcalls & _ & _ & Hreturned).
    + reflexivity.
    + split; [exact Hcalls|exact Hreturned].
Defined.

Lemma sync_status_all_or_nothing_refused :
  Forall (fun e => isStatusWrite e = false)
    (calls (scripted (webhookRefused twoNodes rolledOut (OtherError "refused")))
       (@sync (testAssets "") testLibrary testController) tt) /\
  returned (scripted (webhookRefused twoNodes rolledOut (OtherError "refused")))
    (@sync (testAssets "") testLibrary testController) tt
  = Err (OtherError "refused").
Proof.
  destruct (@sync_status_all_or_nothing (testAssets "") testLibrary
              (scripted (webhookRefused twoNodes rolledOut (OtherError "refused")))
              testController tt) as [Hrefused _].
  eapply Hrefused.
  - nth_event 2.
  - nth_event 3.
Defined.

Lemma sync_leaves_queue_alone_healthy :
  Forall (fun e => isEnqueue e = false)
    (calls (scripted (healthy twoNodes rolledOut))
       (@sync (testAssets "") testLibrary testController) tt).
Proof.
  exact (proj1 (@sync_leaves_queue_alone (testAssets "") testLibrary
                  (scripted (healthy twoNodes rolledOut)) testController tt)).
Defined.

Lemma sync_condition_types_healthy :
  exists fs r,
    In (UpdatedStatus fs r)
       (calls (scripted (healthy twoNodes rollingOut))
          (@sync (testAssets "") testLibrary testController) tt) /\
    exists available progressing,
      nth_error fs 0 = Some (UpdateConditionFn available) /\
      nth_error fs 1 = Some (UpdateConditionFn progressing) /\
      operatorapi.Type_ available = "CSISnapshotWebhookControllerAvailable" /\
      operatorapi.Type_ progressing = "CSISnapshotWebhookControllerProgressing".
Proof.
  eexists. eexists. split; [nth_event 4|].
  edestruct (@sync_condition_types (testAssets "") testLibrary
               (scripted (healthy twoNodes rollingOut)) testController tt)
    as (available & progressing & deployment & webhookConfig
        & Hfs & _ & _ & Havailable & Hprogressing & _);
    [nth_event 4|].
  exists available, progressing. rewrite Hfs.
  split; [reflexivity|]. split; [reflexivity|].
  split; [exact Havailable|exact Hprogressing].
Defined.

(** * Further properties *)

(** ** Rendering: placeholders and plain text *)

Lemma append_assoc (a b c : string) : (a +:+ b) +:+ c = a +:+ (b +:+ c).
Proof.
  induction a as [|ch a IH]; [reflexivity|].
  change (String ch ((a +:+ b) +:+ c) = String ch (a +:+ (b +:+ c))).
  now rewrite IH.
Qed.

(** Text without the first byte of [old] passes through the scan. *)
Lemma replaceFrom_plain (first : ascii) (old' new s t : string) :
  hasByte first s = false ->
  strings.replaceFrom (String first old') new O (s +:+ t)
  = s +:+ strings.replaceFrom (String first old') new O t.
Proof.
  induction s as [|ch s IH]; intros Hfree; [reflexivity|].
  cbn [hasByte] in Hfree. apply orb_false_elim in Hfree as [Hch Hs].
  change (String ch s +:+ t) with (String ch (s +:+ t)).
  rewrite replaceFrom_keep.
  - rewrite IH by assumption. reflexivity.
  - cbn [strings.HasPrefix]. rewrite Ascii.eqb_sym, Hch. reflexivity.
Qed.

Lemma replaceFrom_plain_end (first : ascii) (old' new s : string) :
  hasByte first s = false ->
  strings.replaceFrom (String first old') new O s = s.
Proof.
  intros Hfree. rewrite <- (append_empty_r s) at 1.
  rewrite replaceFrom_plain by assumption. cbn [strings.replaceFrom].
  apply append_empty_r.
Qed.

(** The first replacement fills the image placeholders and leaves the
    others. *)
Lemma replace_image (image : string) (ps : list piece) :
  plainText ps = true ->
  strings.ReplaceAll (manifest ps) "${WEBHOOK_IMAGE}" image
  = filled image "${LOG_LEVEL}" ps.
Proof.
  unfold strings.ReplaceAll. induction ps as [|p ps IH]; intros Hplain.
  - reflexivity.
  - cbn [plainText forallb] in Hplain. apply andb_prop in Hplain as [Hp Hps].
    specialize (IH Hps).
    destruct p as [s| |]; cbn [manifest filled].
    + apply negb_true_iff in Hp.
      rewrite replaceFrom_plain by assumption. now rewrite IH.
    + rewrite replaceFrom_here by discriminate. now rewrite IH.
    + change ("${LOG_LEVEL}" +:+ manifest ps)
        with (String "$" ("{LOG_LEVEL}" +:+ manifest ps)).
      rewrite replaceFrom_keep by reflexivity.
      rewrite replaceFrom_plain by reflexivity. now rewrite IH.
Qed.

(** The second replacement fills the log level placeholders and leaves an
    image without dollar sign as it is. *)
Lemma replace_level (image verbosity : string) (ps : list piece) :
  plainText ps = true ->
  hasByte "$" image = false ->
  strings.ReplaceAll (filled image "${LOG_LEVEL}" ps) "${LOG_LEVEL}" verbosity
  = filled image verbosity ps.
Proof.
  unfold strings.ReplaceAll. intros Hplain Himage.
  induction ps as [|p ps IH].
  - reflexivity.
  - cbn [plainText forallb] in Hplain. apply andb_prop in Hplain as [Hp Hps].
    specialize (IH Hps).
    destruct p as [s| |]; cbn [filled].
    + apply negb_true_iff in Hp.
      rewrite replaceFrom_plain by assumption. now rewrite IH.
    + rewrite replaceFrom_plain by assumption. now rewrite IH.
    + rewrite replaceFrom_here by discriminate. now rewrite IH.
Qed.

Lemma getDeployment_deploymentString `{Assets} `{Library}
    (c : csiSnapshotWebhookController) (opSpec : operatorapi.OperatorSpec) :
  ValidLogLevel (operatorapi.LogLevel opSpec) = true ->
  getDeployment c opSpec
  = resourceread.ReadDeploymentV1OrDie (deploymentString c opSpec).
Proof.
  intros Hvalid. unfold getDeployment, deploymentString. now rewrite Hvalid.
Qed.

Lemma fillFrom_plain (image verbosity s t : string) :
  hasByte "$" s = false ->
  fillFrom image verbosity O (s +:+ t) = s +:+ fillFrom image verbosity O t.
Proof.
  induction s as [|ch s IH]; intros Hfree; [reflexivity|].
  cbn [hasByte] in Hfree. apply orb_false_elim in Hfree as [Hch Hs].
  change (String ch s +:+ t) with (String ch (s +:+ t)).
  cbn [fillFrom strings.HasPrefix]. rewrite Ascii.eqb_sym, Hch.
  rewrite IH by assumption. reflexivity.
Qed.

Lemma fillFrom_image (image verbosity t : string) :
  fillFrom image verbosity O ("${WEBHOOK_IMAGE}" +:+ t)
  = image +:+ fillFrom image verbosity O t.
Proof.
  change ("${WEBHOOK_IMAGE}" +:+ t) with (String "$" ("{WEBHOOK_IMAGE}" +:+ t)).
  cbn [fillFrom].
  replace (strings.HasPrefix (String "$" ("{WEBHOOK_IMAGE}" +:+ t)) "${WEBHOOK_IMAGE}")
    with true by (symmetry; apply (HasPrefix_app "${WEBHOOK_IMAGE}" t)).
  reflexivity.
Qed.

Lemma fillFrom_level (image verbosity t : string) :
  fillFrom image verbosity O ("${LOG_LEVEL}" +:+ t)
  = verbosity +:+ fillFrom image verbosity O t.
Proof.
  change ("${LOG_LEVEL}" +:+ t) with (String "$" ("{LOG_LEVEL}" +:+ t)).
  cbn [fillFrom].
  replace (strings.HasPrefix (String "$" ("{LOG_LEVEL}" +:+ t)) "${WEBHOOK_IMAGE}")
    with false by reflexivity.
  replace (strings.HasPrefix (String "$" ("{LOG_LEVEL}" +:+ t)) "${LOG_LEVEL}")
    with true by (symmetry; apply (HasPrefix_app "${LOG_LEVEL}" t)).
  reflexivity.
Qed.

Lemma placeholdersFilled_manifest (image verbosity : string) (ps : list piece) :
  plainText ps = true ->
  placeholdersFilled (manifest ps) image verbosity = filled image verbosity ps.
Proof.
  unfold placeholdersFilled. induction ps as [|p ps IH]; intros Hplain.
  - reflexivity.
  - cbn [plainText forallb] in Hplain. apply andb_prop in Hplain as [Hp Hps].
    specialize (IH Hps).
    destruct p as [s| |]; cbn [manifest filled].
    + apply negb_true_iff in Hp.
      rewrite fillFrom_plain by assumption. now rewrite IH.
    + rewrite fillFrom_image. now rewrite IH.
    + rewrite fillFrom_level. now rewrite IH.
Qed.

(** X1: when the Deployment manifest holds a dollar sign only in its
    placeholders and the image holds none, the text handed to the decoder
    is the manifest with the image at every image placeholder and the
    decimal verbosity at every log level placeholder, all other text as it
    was. It is then what one pass over the manifest gives. *)
Theorem getDeployment_fills_placeholders `{Assets} `{Library}
    (c : csiSnapshotWebhookController) (opSpec : operatorapi.OperatorSpec)
    (ps : list piece) :
  MustAsset deploymentAsset = manifest ps ->
  plainText ps = true ->
  hasByte "$" (csiSnapshotWebhookImage c) = false ->
  ValidLogLevel (operatorapi.LogLevel opSpec) = true ->
  getDeployment c opSpec
  = resourceread.ReadDeploymentV1OrDie
      (filled (csiSnapshotWebhookImage c)
         (strconv.Itoa (LogLevelToVerbosity (operatorapi.LogLevel opSpec))) ps) /\
  rendersInOnePass c opSpec.
Proof.
  intros Hasset Hplain Himage Hvalid. unfold rendersInOnePass.
  rewrite getDeployment_deploymentString by assumption.
  unfold deploymentString. rewrite Hasset.
  rewrite replace_image, replace_level by assumption.
  split; [reflexivity|]. now rewrite placeholdersFilled_manifest.
Qed.

(** ** Rendering: no log level placeholder is left *)

Lemma apart_tail (s : string) (ch : ascii) (t : string) :
  apart s (String ch t) = true -> apart s t = true.
Proof.
  induction s as [|b s IH]; [reflexivity|].
  cbn [apart hasByte]. intros Hs. apply andb_prop in Hs as [Hb Hs].
  apply negb_true_iff, orb_false_elim in Hb as [_ Hb].
  rewrite Hb. cbn. now apply IH.
Qed.

Lemma digits_apart (d : Decimal.uint) (t : string) :
  apart "0123456789" t = true ->
  apart (NilEmpty.string_of_uint d) t = true.
Proof.
  intros Hdigits. cbn [apart] in Hdigits.
  repeat (apply andb_prop in Hdigits as [? Hdigits]).
  induction d as [|d IH|d IH|d IH|d IH|d IH|d IH|d IH|d IH|d IH|d IH];
    cbn [NilEmpty.string_of_uint apart]; [reflexivity|..];
    rewrite IH, andb_true_r; assumption.
Qed.

(** [strconv.Itoa] writes a sign and digits, and at least one byte. *)
Lemma Itoa_apart (i : Z) (t : string) :
  apart "-0123456789" t = true -> apart (strconv.Itoa i) t = true.
Proof.
  intros Hbytes. cbn [apart] in Hbytes. apply andb_prop in Hbytes as [Hsign Hdigits].
  assert (Huint : forall d, apart (NilZero.string_of_uint d) t = true).
  { intros d. destruct d; try (now apply digits_apart).
    cbn [NilZero.string_of_uint apart]. cbn [apart] in Hdigits.
    apply andb_prop in Hdigits as [Hzero _]. now rewrite Hzero. }
  unfold strconv.Itoa, NilZero.string_of_int.
  destruct (Z.to_int i) as [d|d]; [apply Huint|].
  cbn [apart]. now rewrite Hsign, Huint.
Qed.

Lemma Itoa_nonempty (i : Z) : strconv.Itoa i <> "".
Proof.
  unfold strconv.Itoa, NilZero.string_of_int, NilZero.string_of_uint.
  destruct (Z.to_int i) as [d|d]; [|discriminate].
  destruct d; discriminate.
Qed.

(** Bytes that [old] does not hold cannot start an occurrence of it. *)
Lemma occurs_after (old n t : string) :
  old <> "" -> apart n old = true -> occurs old (n +:+ t) = occurs old t.
Proof.
  intros Hold. induction n as [|ch n IH]; intros Hn; [reflexivity|].
  cbn [apart] in Hn. apply andb_prop in Hn as [Hch Hn].
  change (String ch n +:+ t) with (String ch (n +:+ t)).
  cbn [occurs]. rewrite IH by assumption.
  destruct old as [|first old']; [congruence|].
  cbn [strings.HasPrefix hasByte] in *.
  apply negb_true_iff, orb_false_elim in Hch as [Hch _].
  now rewrite Hch.
Qed.

(** What the substituted text starts with, the text started with, as long
    as it is made of bytes that [new] does not hold. *)
Lemma Substituted_prefix (old new s s' : string) :
  Substituted old new s s' ->
  new <> "" ->
  forall p : string,
    apart new p = true ->
    strings.HasPrefix s' p = true -> strings.HasPrefix s p = true.
Proof.
  intros Hs Hnew.
  induction Hs as [|s s' Hs IH|ch s s' Hkeep Hs IH]; intros p Hp Hstart.
  - assumption.
  - destruct p as [|pc p']; [reflexivity|].
    destruct new as [|nc new']; [congruence|].
    change (String nc new' +:+ s') with (String nc (new' +:+ s')) in Hstart.
    cbn [strings.HasPrefix] in Hstart. cbn [apart hasByte] in Hp.
    apply andb_prop in Hp as [Hnc _].
    apply negb_true_iff, orb_false_elim in Hnc as [Hnc _].
    rewrite Hnc in Hstart. discriminate.
  - destruct p as [|pc p']; [reflexivity|].
    cbn [strings.HasPrefix] in *.
    destruct (Ascii.eqb ch pc); [|discriminate].
    apply IH; [|assumption]. now apply apart_tail in Hp.
Qed.

(** After the substitution of a text that shares no byte with [old] and is
    not empty, [old] is found nowhere. *)
Lemma Substituted_clears (old new s s' : string) :
  Substituted old new s s' ->
  old <> "" -> new <> "" -> apart new old = true ->
  occurs old s' = false.
Proof.
  intros Hs Hold Hnew Hapart.
  induction Hs as [|s s' Hs IH|ch s s' Hkeep Hs IH].
  - destruct old; [congruence|reflexivity].
  - now rewrite occurs_after.
  - cbn [occurs]. rewrite IH, orb_false_r.
    destruct (strings.HasPrefix (String ch s') old) eqn:Hstart; [|reflexivity].
    rewrite <- Hkeep. symmetry.
    apply (Substituted_prefix old new (String ch s) (String ch s'));
      [now constructor|assumption..].
Qed.

(** X2: for a valid log level, the text handed to the decoder holds no
    log level placeholder, whatever the manifest and the image are. *)
Theorem getDeployment_leaves_no_level_placeholder `{Assets} `{Library}
    (c : csiSnapshotWebhookController) (opSpec : operatorapi.OperatorSpec) :
  ValidLogLevel (operatorapi.LogLevel opSpec) = true ->
  getDeployment c opSpec
  = resourceread.ReadDeploymentV1OrDie (deploymentString c opSpec) /\
  occurs "${LOG_LEVEL}" (deploymentString c opSpec) = false.
Proof.
  intros Hvalid. split; [now apply getDeployment_deploymentString|].
  unfold deploymentString.
  eapply Substituted_clears.
  - apply ReplaceAll_Substituted. discriminate.
  - discriminate.
  - apply Itoa_nonempty.
  - apply Itoa_apart. reflexivity.
Qed.

(** ** The status conditions, read backwards *)

Lemma append_nonempty (s t : string) : t <> "" -> s +:+ t <> "".
Proof. intros Ht. destruct s; [exact Ht|discriminate]. Qed.

(** X3: the Progressing condition is False exactly when the generation is
    observed and the updated replicas are as many as the Deployment asks
    for; it is True exactly when the generation is not observed or the two
    counts differ. It carries the reason [Deploying], and a message,
    exactly when it is True. *)
Theorem deploymentProgressing_status (deployment : appsv1.Deployment) :
  (operatorapi.Status (deploymentProgressing deployment) = operatorapi.ConditionFalse
   <-> appsv1.ObservedGeneration (appsv1.Status deployment)
       = appsv1.Generation deployment /\
       appsv1.Replicas (appsv1.Spec deployment)
       = Some (appsv1.UpdatedReplicas (appsv1.Status deployment))) /\
  (operatorapi.Status (deploymentProgressing deployment) = operatorapi.ConditionTrue
   <-> appsv1.ObservedGeneration (appsv1.Status deployment)
       <> appsv1.Generation deployment \/
       exists desired,
         appsv1.Replicas (appsv1.Spec deployment) = Some desired /\
         appsv1.UpdatedReplicas (appsv1.Status deployment) <> desired) /\
  (operatorapi.Status (deploymentProgressing deployment) = operatorapi.ConditionTrue
   <-> operatorapi.Reason (deploymentProgressing deployment) = "Deploying") /\
  (operatorapi.Status (deploymentProgressing deployment) = operatorapi.ConditionTrue
   <-> operatorapi.Message (deploymentProgressing deployment) <> "").
Proof.
  unfold deploymentProgressing.
  destruct (appsv1.ObservedGeneration (appsv1.Status deployment)
            =? appsv1.Generation deployment) eqn:Hgen; cbn [negb].
  - apply Z.eqb_eq in Hgen.
    destruct (appsv1.Replicas (appsv1.Spec deployment)) as [desired|] eqn:Hrep.
    + destruct (appsv1.UpdatedReplicas (appsv1.Status deployment) =? desired)
        eqn:Hupd; cbn.
      * apply Z.eqb_eq in Hupd. subst desired.
        repeat split; try discriminate; try congruence; auto.
        intros [Hne|[d [Hd Hne]]]; congruence.
      * apply Z.eqb_neq in Hupd.
        repeat split; try discriminate; try congruence; auto.
        -- intros [_ Heq]. congruence.
        -- intros _. right. exists desired. auto.
        -- intros _. apply append_nonempty. discriminate.
    + cbn. repeat split; try discriminate; try congruence; auto.
      * intros [_ Heq]. discriminate.
      * intros [Hne|[d [Hd _]]]; [congruence|discriminate].
  - apply Z.eqb_neq in Hgen. cbn.
    repeat split; try discriminate; try congruence; auto.
    intros [Heq _]. congruence.
Qed.

(** ** The reconciliation cycle, call by call *)

Section CycleSteps.

Context `{Assets} `{Library}.
Variable W : World.

(** X4: a cycle makes its calls in one order: the read of the operator
    configuration, the node listing, the apply of the Deployment, the apply
    of the webhook configuration, the status write. It makes each once at
    most, starts with the read, and skips none before the call it ends
    with. *)
Theorem sync_call_order (c : csiSnapshotWebhookController) (s : state W) :
  map stage (calls W (sync c) s) = seq 0 (length (calls W (sync c) s)) /\
  (1 <= length (calls W (sync c) s) <= 5)%nat.
Proof.
  sync_cases; split; try reflexivity; cbn [length]; lia.
Qed.

(** X5: a call that fails is the last call of the cycle, and the cycle
    returns its error as it is; the one error it swallows is a not-found
    error of the read. *)
Theorem sync_failure_ends_cycle (c : csiSnapshotWebhookController) (s : state W)
    (e : event) (err : error) :
  In e (calls W (sync c) s) ->
  failure e = Some err ->
  (exists pre, calls W (sync c) s = (pre ++ [e])%list) /\
  (stage e = 0%nat /\ apierrors.IsNotFound err = true ->
   returned W (sync c) s = Ok tt) /\
  (stage e <> 0%nat \/ apierrors.IsNotFound err = false ->
   returned W (sync c) s = Err err).
Proof.
  sync_cases; intros Hin Hfail.
  all: repeat (destruct Hin as [<-|Hin];
               [cbn [failure] in Hfail; try discriminate Hfail;
                injection Hfail as <-|]);
       try (destruct Hin).
  all: split; [ends_with|].
  all: cbn [stage]; split; [intros [Hstage Hfound]|intros [Hstage|Hfound]].
  all: try reflexivity; try congruence; try lia.
Qed.

(** X6: a cycle returns no error only in two ways: it stopped after the
    read because the configuration is absent or not managed, or it made
    all five calls and every one succeeded. *)
Theorem sync_success (c : csiSnapshotWebhookController) (s : state W) :
  returned W (sync c) s = Ok tt ->
  (exists r, calls W (sync c) s = [GotOperatorState r] /\ absentOrUnmanaged r) \/
  (exists config selector nodes required g applied hook hg appliedHook fs status,
     calls W (sync c) s
     = [GotOperatorState (Replied config);
        ListedNodes selector (Replied nodes);
        AppliedDeployment required g (Replied applied);
        AppliedValidatingWebhookConfiguration hook hg (Replied appliedHook);
        UpdatedStatus fs (Replied status)]).
Proof.
  sync_cases; intros Hret; try discriminate Hret.
  all: first
         [ right; do 11 eexists; reflexivity
         | left; eexists; split; [reflexivity|]; cbn [absentOrUnmanaged];
           first
             [ assumption
             | match goal with
               | E : negb (String.eqb ?a ?b) = true |- _ =>
                   apply negb_true_iff, String.eqb_neq in E; exact E
               end ] ].
Qed.

(** X7: with a managed configuration whose log level is not valid, the
    cycle stops after the read: it lists no node, applies nothing, writes
    no status, and returns the error that names the log level. *)
Theorem sync_invalid_log_level (c : csiSnapshotWebhookController) (s : state W)
    (opSpec : operatorapi.OperatorSpec) (opStatus : operatorapi.OperatorStatus)
    (resourceVersion : string) :
  fst (answer W _ GetOperatorState s) = Replied (opSpec, opStatus, resourceVersion) ->
  operatorapi.ManagementState opSpec = operatorapi.Managed ->
  ValidLogLevel (operatorapi.LogLevel opSpec) = false ->
  calls W (sync c) s = [GotOperatorState (Replied (opSpec, opStatus, resourceVersion))] /\
  stateAfter W (sync c) s = snd (answer W _ GetOperatorState s) /\
  returned W (sync c) s
  = Err (Errorf "logLevel %q is not a valid log level"
           [fmt.Str (operatorapi.LogLevel opSpec)]).
Proof.
  unfold calls, returned, stateAfter, sync. cbn [run].
  destruct (answer W _ GetOperatorState s) as [r s1]. cbn [fst snd].
  intros -> Hmanaged Hvalid. rewrite Hmanaged, String.eqb_refl. cbn [negb].
  unfold getDeployment. rewrite Hvalid. cbn. repeat split.
Qed.


(** X9: the generation each apply is told to expect is looked up in the
    generations of the operator status that this cycle read: for the
    Deployment by the Deployment to apply, for the webhook configuration by
    its name. *)
Theorem sync_generation_hints (c : csiSnapshotWebhookController) (s : state W)
    (opSpec : operatorapi.OperatorSpec) (opStatus : operatorapi.OperatorStatus)
    (resourceVersion : string) :
  In (GotOperatorState (Replied (opSpec, opStatus, resourceVersion)))
     (calls W (sync c) s) ->
  (forall required g r,
     In (AppliedDeployment required g r) (calls W (sync c) s) ->
     g = ExpectedDeploymentGeneration required (operatorapi.Generations opStatus)) /\
  (forall hook hg r,
     In (AppliedValidatingWebhookConfiguration hook hg r) (calls W (sync c) s) ->
     hg = ExpectedValidatingWebhooksConfiguration
            (metav1.Name (admissionv1.ObjectMeta hook))
            (operatorapi.Generations opStatus)).
Proof.
  sync_cases; intros Hread; pick_event.
  all: split; intros ? ? ? Hin; pick_event; reflexivity.
Qed.

(** X10: the Deployment a cycle applies is the one [getDeployment] renders
    for the configuration read, changed in its replica count only; the
    webhook configuration it applies is the one [getWebhookConfig]
    renders. *)
Theorem sync_applies_rendered (c : csiSnapshotWebhookController) (s : state W)
    (opSpec : operatorapi.OperatorSpec) (opStatus : operatorapi.OperatorStatus)
    (resourceVersion : string) :
  In (GotOperatorState (Replied (opSpec, opStatus, resourceVersion)))
     (calls W (sync c) s) ->
  (forall required g r,
     In (AppliedDeployment required g r) (calls W (sync c) s) ->
     exists rendered,
       getDeployment c opSpec = Ok rendered /\
       appsv1.ObjectMeta required = appsv1.ObjectMeta rendered /\
       appsv1.Template (appsv1.Spec required)
       = appsv1.Template (appsv1.Spec rendered) /\
       appsv1.Status required = appsv1.Status rendered) /\
  (forall hook hg r,
     In (AppliedValidatingWebhookConfiguration hook hg r) (calls W (sync c) s) ->
     getWebhookConfig = Ok hook).
Proof.
  sync_cases; intros Hread; pick_event.
  all: split; intros ? ? ? Hin; pick_event.
  all: try (eexists; split; [eassumption|]; repeat split).
  all: reflexivity.
Qed.

(** X11: the conditions of a status write are computed from the Deployment
    that the apply returned, not from the one that was rendered: they are
    its Available condition and its Progressing condition, and no other. *)
Theorem sync_conditions_from_live (c : csiSnapshotWebhookController) (s : state W)
    (fs : list UpdateStatusFunc) (r : reply (operatorapi.OperatorStatus * bool)) :
  In (UpdatedStatus fs r) (calls W (sync c) s) ->
  exists required g deployment changed,
    In (AppliedDeployment required g (Replied (deployment, changed)))
       (calls W (sync c) s) /\
    (forall cond,
       In (UpdateConditionFn cond) fs
       <-> cond = deploymentAvailable deployment \/
           cond = deploymentProgressing deployment).
Proof.
  intros Hin.
  destruct (sync_status_write W c s fs r Hin)
    as (pre & required & g & deployment & changed & hook & hg
        & webhookConfig & hchanged & Hlog & _ & Hfs).
  exists required, g, deployment, changed. split.
  - rewrite Hlog. apply in_or_app. right. left. reflexivity.
  - intros cond. subst fs. split.
    + intros [Hc|[Hc|[Hc|[]]]]; try discriminate Hc; injection Hc as <-; auto.
    + intros [->| ->]; [left|right; left]; reflexivity.
Qed.

(** A Deployment that a cycle applies names a replica count. *)
Lemma sync_applies_sized (c : csiSnapshotWebhookController) (s : state W)
    (required : appsv1.Deployment) (g : Z) (r : reply (appsv1.Deployment * bool)) :
  In (AppliedDeployment required g r) (calls W (sync c) s) ->
  exists n, appsv1.Replicas (appsv1.Spec required) = Some n.
Proof.
  sync_cases; intros Hin; pick_event.
  all: eexists; reflexivity.
Qed.

(** X12: when the apply returns a Deployment with the replica count that
    the cycle asked for, the Progressing condition of that Deployment is
    True or False, never without status. *)
Theorem sync_progressing_settled (c : csiSnapshotWebhookController) (s : state W)
    (required : appsv1.Deployment) (g : Z) (deployment : appsv1.Deployment)
    (changed : bool) :
  In (AppliedDeployment required g (Replied (deployment, changed)))
     (calls W (sync c) s) ->
  appsv1.Replicas (appsv1.Spec deployment) = appsv1.Replicas (appsv1.Spec required) ->
  operatorapi.Status (deploymentProgressing deployment) = operatorapi.ConditionTrue \/
  operatorapi.Status (deploymentProgressing deployment) = operatorapi.ConditionFalse.
Proof.
  intros Hin Hsame.
  destruct (sync_applies_sized c s required g _ Hin) as [n Hn].
  rewrite Hn in Hsame. unfold deploymentProgressing. rewrite Hsame.
  destruct (negb _); [left; reflexivity|].
  destruct (_ =? _); [right|left]; reflexivity.
Qed.

End CycleSteps.

(** ** The further properties at work on a test cluster *)

Lemma getDeployment_fills_placeholders_test :
  @getDeployment (testAssets "") testLibrary testController managedSpec
  = @resourceread.ReadDeploymentV1OrDie testLibrary
      (filled "quay.io/webhook:v1" "2" testManifest) /\
  @rendersInOnePass (testAssets "") testLibrary testController managedSpec.
Proof.
  exact (@getDeployment_fills_placeholders (testAssets "") testLibrary
           testController managedSpec testManifest
           eq_refl eq_refl eq_refl eq_refl).
Defined.

Lemma getDeployment_leaves_no_level_placeholder_test :
  @getDeployment (testAssets "") testLibrary
    (newController "quay.io/webhook:${LOG_LEVEL}") managedSpec
  = @resourceread.ReadDeploymentV1OrDie testLibrary
      (@deploymentString (testAssets "") testLibrary
         (newController "quay.io/webhook:${LOG_LEVEL}") managedSpec) /\
  occurs "${LOG_LEVEL}"
    (@deploymentString (testAssets "") testLibrary
       (newController "quay.io/webhook:${LOG_LEVEL}") managedSpec)
  = false.
Proof.
  exact (@getDeployment_leaves_no_level_placeholder (testAssets "") testLibrary
           (newController "quay.io/webhook:${LOG_LEVEL}") managedSpec eq_refl).
Defined.

Lemma sync_failure_ends_cycle_unlisted :
  returned (scripted (nodesUnlisted (OtherError "timeout")))
    (@sync (testAssets "") testLibrary testController) tt
  = Err (OtherError "timeout").
Proof.
  edestruct (@sync_failure_ends_cycle (testAssets "") testLibrary
               (scripted (nodesUnlisted (OtherError "timeout")))
               testController tt)
    as (_ & _ & Hreturned); [nth_event 1|reflexivity|].
  apply Hreturned. left. discriminate.
Defined.

Lemma sync_success_healthy :
  (exists r,
     calls (scripted (healthy twoNodes rolledOut))
       (@sync (testAssets "") testLibrary testController) tt
     = [GotOperatorState r] /\ absentOrUnmanaged r) \/
  (exists config selector nodes required g applied hook hg appliedHook fs status,
     calls (scripted (healthy twoNodes rolledOut))
       (@sync (testAssets "") testLibrary testController) tt
     = [GotOperatorState (Replied config);
        ListedNodes selector (Replied nodes);
        AppliedDeployment required g (Replied applied);
        AppliedValidatingWebhookConfiguration hook hg (Replied appliedHook);
        UpdatedStatus fs (Replied status)]).
Proof.
  apply (@sync_success (testAssets "") testLibrary
           (scripted (healthy twoNodes rolledOut)) testController tt).
  vm_compute. reflexivity.
Defined.

Lemma sync_invalid_log_level_verbose :
  calls (scripted (withOperatorState (Replied (verboseSpec, emptyStatus, "1"))))
    (@sync (testAssets "") testLibrary testController) tt
  = [GotOperatorState (Replied (verboseSpec, emptyStatus, "1"))] /\
  returned (scripted (withOperatorState (Replied (verboseSpec, emptyStatus, "1"))))
    (@sync (testAssets "") testLibrary testController) tt
  = Err (Errorf "logLevel %q is not a valid log level" [fmt.Str "Verbose"]).
Proof.
  destruct (@sync_invalid_log_level (testAssets "") testLibrary
              (scripted (withOperatorState
                           (Replied (verboseSpec, emptyStatus, "1"))))
              testController tt verboseSpec emptyStatus "1"
              eq_refl eq_refl eq_refl)
    as (Hcalls & _ & Hreturned).
  split; [exact Hcalls|exact Hreturned].
Defined.


Lemma sync_generation_hints_healthy :
  (forall required g r,
     In (AppliedDeployment required g r)
        (calls (scripted (healthy twoNodes rolledOut))
           (@sync (testAssets "") testLibrary testController) tt) ->
     g = -1) /\
  (forall hook hg r,
     In (AppliedValidatingWebhookConfiguration hook hg r)
        (calls (scripted (healthy twoNodes rolledOut))
           (@sync (testAssets "") testLibrary testController) tt) ->
     hg = -1).
Proof.
  apply (@sync_generation_hints (testAssets "") testLibrary
           (scripted (healthy twoNodes rolledOut)) testController tt
           managedSpec emptyStatus "1").
  nth_event 0.
Defined.

Lemma sync_applies_rendered_healthy :
  (forall required g r,
     In (AppliedDeployment required g r)
        (calls (scripted (healthy twoNodes rolledOut))
           (@sync (testAssets "") testLibrary testController) tt) ->
     exists rendered,
       @getDeployment (testAssets "") testLibrary testController managedSpec
       = Ok rendered /\
       appsv1.ObjectMeta required = appsv1.ObjectMeta rendered /\
       appsv1.Template (appsv1.Spec required)
       = appsv1.Template (appsv1.Spec rendered) /\
       appsv1.Status required = appsv1.Status rendered) /\
  (forall hook hg r,
     In (AppliedValidatingWebhookConfiguration hook hg r)
        (calls (scripted (healthy twoNodes rolledOut))
           (@sync (testAssets "") testLibrary testController) tt) ->
     @getWebhookConfig (testAssets "") testLibrary = Ok hook).
Proof.
  apply (@sync_applies_rendered (testAssets "") testLibrary
           (scripted (healthy twoNodes rolledOut)) testController tt
           managedSpec emptyStatus "1").
  nth_event 0.
Defined.

Lemma sync_conditions_from_live_rolling :
  exists fs,
    In (UpdatedStatus fs (Replied (emptyStatus, true)))
       (calls (scripted (healthy twoNodes rollingOut))
          (@sync (testAssets "") testLibrary testController) tt) /\
    exists required g deployment changed,
      In (AppliedDeployment required g (Replied (deployment, changed)))
         (calls (scripted (healthy twoNodes rollingOut))
            (@sync (testAssets "") testLibrary testController) tt) /\
      (forall cond,
         In (UpdateConditionFn cond) fs
         <-> cond = deploymentAvailable deployment \/
             cond = deploymentProgressing deployment).
Proof.
  eexists. split; [nth_event 4|].
  eapply (@sync_conditions_from_live (testAssets "") testLibrary
            (scripted (healthy twoNodes rollingOut)) testController tt).
  nth_event 4.
Defined.

Lemma sync_progressing_settled_rolling :
  operatorapi.Status (deploymentProgressing (live rollingOut renderedForTwo))
  = operatorapi.ConditionTrue \/
  operatorapi.Status (deploymentProgressing (live rollingOut renderedForTwo))
  = operatorapi.ConditionFalse.
Proof.
  apply (@sync_progressing_settled (testAssets "") testLibrary
           (scripted (healthy twoNodes rollingOut)) testController tt
           renderedForTwo (-1) (live rollingOut renderedForTwo) true).
  - nth_event 2.
  - reflexivity.
Defined.
